(** * YouTrack MCP adapter: a shallow embedding of [youtrack_api.py] and of
    the tool facade of [server.py], with the properties of its request and
    response layer.

    Python values are an inductive type, dictionaries are stdpp finite maps
    keyed by strings, integers are [Z], and floats are the kernel's binary64
    numbers.  The one effect of the program, the call into the HTTP library,
    is explicit: a computation is run against a [Transport], which says how
    the library answers a given call, and yields the calls that were issued
    together with a value or a raised exception.  The operations are given
    twice: first under a standard output that takes every line, where the
    [print] calls change neither the calls nor the values and are left out,
    and then, in the module [Diag], with their [print] calls, which raise
    when the line cannot be written.  The [logger] calls of the facade do
    not raise and are left out. *)

From Stdlib Require Import ZArith Floats.PrimFloat DecimalString Ascii.
From stdpp Require Import gmap strings list.

Local Open Scope Z_scope.

(** ** Python values *)

#[warnings="-register-all"]
Inductive pyval : Type :=
  | PNone
  | PBool (b : bool)
  | PInt (n : Z)
  | PFloat (x : float)
  | PStr (s : string)
  | PList (l : list pyval)
  | PDict (d : gmap string pyval).

(** [str(n)] for an [int]. *)
Definition str_of_int (n : Z) : string := NilZero.string_of_int (Z.to_int n).

(** Truth value of an optional string: [None] and [""] are false. *)
Definition truthy (s : option string) : bool :=
  match s with
  | None => false
  | Some EmptyString => false
  | Some (String _ _) => true
  end.

(** An optional string inside an f-string: [None] prints as its name. *)
Definition format_str (s : option string) : string :=
  match s with
  | None => "None"
  | Some s => s
  end.

(** [str.lower] on the ASCII range, which is all that a comparison with an
    ASCII literal can observe. *)
Definition ascii_lower (c : ascii) : ascii :=
  let n := nat_of_ascii c in
  if (65 <=? n)%nat && (n <=? 90)%nat then ascii_of_nat (n + 32) else c.

Fixpoint lower (s : string) : string :=
  match s with
  | EmptyString => EmptyString
  | String c s' => String (ascii_lower c) (lower s')
  end.

(** ** Exceptions *)

(** The classes of [requests.exceptions], all derived from
    [RequestException]. *)
Inductive RequestsError : Type :=
  | RequestException | HTTPError | ConnectionError | ProxyError | SSLError
  | Timeout | ConnectTimeout | ReadTimeout | URLRequired | TooManyRedirects
  | MissingSchema | InvalidSchema | InvalidURL | InvalidHeader
  | ChunkedEncodingError | ContentDecodingError | StreamConsumedError
  | RetryError | UnrewindableBodyError | InvalidJSONError | JSONDecodeError.

(** The class of a raised exception.  Every class here derives from
    [Exception]: these are the failures that a call can report.
    [OtherException name] is a class outside the HTTP library ([ValueError],
    [TypeError], [KeyError], the [json] module's own decoding error, ...).
    Interpreter signals that derive from [BaseException] alone
    ([KeyboardInterrupt], [SystemExit]) are not outcomes of a call and are
    not represented. *)
Inductive ExcClass : Type :=
  | Requests (k : RequestsError)
  | OtherException (name : string).

Record PyException : Type := mkException {
  exc_class : ExcClass;
  exc_str : string          (* str(e) *)
}.

(** [isinstance(e, requests.exceptions.RequestException)] *)
Definition is_RequestException (e : PyException) : bool :=
  match exc_class e with
  | Requests _ => true
  | OtherException _ => false
  end.

(** [isinstance(e, Exception)] *)
Definition is_Exception (e : PyException) : bool :=
  match exc_class e with
  | Requests _ => true
  | OtherException _ => true
  end.

(** ** Calls into the HTTP library *)

Inductive outcome (A : Type) : Type :=
  | Returns (a : A)
  | Raises (e : PyException).
Arguments Returns {A} a.
Arguments Raises {A} e.

(** The arguments of one [requests.request(method, url, headers=, params=,
    json=)] call. *)
Record Request : Type := mkRequest {
  req_method : string;
  req_url : string;
  req_headers : gmap string string;
  req_params : pyval;
  req_json : pyval
}.

(** What the program reads of a [requests.Response]: the status, and what
    [response.json()] does; [reason] and [resp_url] appear in the message of
    [raise_for_status]. *)
Record Response : Type := mkResponse {
  status_code : Z;
  reason : string;
  resp_url : string;
  resp_json : outcome pyval
}.

(** The world: how the HTTP library answers a call. *)
Definition Transport : Type := Request -> outcome Response.

(** A computation: run against a transport, it yields the calls it issued, in
    order, and returns or raises. *)
Definition Eff (A : Type) : Type := Transport -> list Request * outcome A.

Definition raise {A} (e : PyException) : Eff A := fun _ => ([], Raises e).

#[export] Instance Eff_ret : MRet Eff := fun A a _ => ([], Returns a).

#[export] Instance Eff_bind : MBind Eff := fun A B k m net =>
  match m net with
  | (calls, Returns a) => let '(calls', o) := k a net in (calls ++ calls', o)
  | (calls, Raises e) => (calls, Raises e)
  end.

(** The calls issued by a run, and its outcome. *)
Definition issued {A} (m : Eff A) (net : Transport) : list Request := fst (m net).
Definition result {A} (m : Eff A) (net : Transport) : outcome A := snd (m net).

(** One [except] clause: the class test and the handler body. *)
Definition clause (A : Type) : Type := (PyException -> bool) * (PyException -> Eff A).

(** The clauses are tried in order; an exception that none matches goes on. *)
Fixpoint handle {A} (clauses : list (clause A)) (e : PyException) : Eff A :=
  match clauses with
  | [] => raise e
  | (matches, handler) :: rest => if matches e then handler e else handle rest e
  end.

Definition try_except {A} (body : Eff A) (clauses : list (clause A)) : Eff A :=
  fun net =>
    match body net with
    | (calls, Returns a) => (calls, Returns a)
    | (calls, Raises e) => let '(calls', o) := handle clauses e net in (calls ++ calls', o)
    end.

(** [requests.request]: the call is issued and the library answers. *)
Definition requests_request (method url : string) (headers : gmap string string)
    (params json : pyval) : Eff Response :=
  fun net =>
    let r := mkRequest method url headers params json in
    ([r], net r).

(** [Response.raise_for_status], as the HTTP library documents it: a status
    of 400 to 499 or of 500 to 599 raises [HTTPError]. *)
Definition http_error_msg (kind : string) (r : Response) : string :=
  str_of_int (status_code r) +:+ " " +:+ kind +:+ " Error: " +:+ reason r
    +:+ " for url: " +:+ resp_url r.

Definition raise_for_status (r : Response) : Eff unit :=
  if bool_decide (400 ≤ status_code r < 500) then
    raise (mkException (Requests HTTPError) (http_error_msg "Client" r))
  else if bool_decide (500 ≤ status_code r < 600) then
    raise (mkException (Requests HTTPError) (http_error_msg "Server" r))
  else mret tt.

(** [response.json()] *)
Definition response_json (r : Response) : Eff pyval := fun _ => ([], resp_json r).

(** ** youtrack_api.py *)

(** [os.environ.get(key, dflt)] *)
Definition environ_get (environ : gmap string string) (key dflt : string) : string :=
  default dflt (environ !! key).

(** The module's globals, bound when the module is imported. *)
Record Globals : Type := mkGlobals {
  YOUTRACK_URL : string;
  YOUTRACK_TOKEN : string
}.

Definition import_youtrack_api (environ : gmap string string) : Globals :=
  {| YOUTRACK_URL := environ_get environ "YOUTRACK_URL" "YOUR_YOUTRACK_INSTANCE_URL";
     YOUTRACK_TOKEN := environ_get environ "YOUTRACK_TOKEN" "YOUR_YOUTRACK_TOKEN" |}.

Definition HEADERS (g : Globals) : gmap string string :=
  {[ "Authorization" := "Bearer " +:+ YOUTRACK_TOKEN g;
     "Accept" := "application/json";
     "Content-Type" := "application/json" ]}.

(** [d[key] += suffix] on a dictionary whose entry is a string. *)
Definition iadd_str (d : gmap string pyval) (key suffix : string) : Eff (gmap string pyval) :=
  match d !! key with
  | Some (PStr s) => mret (<[key := PStr (s +:+ suffix)]> d)
  | Some _ => raise (mkException (OtherException "TypeError") "unsupported operand type(s) for +=")
  | None => raise (mkException (OtherException "KeyError") key)
  end.

Definition error_dict (msg : string) : pyval := PDict {[ "error" := PStr msg ]}.

Section youtrack_api.
Context (g : Globals).

(** The guarded block of [_make_request]. *)
Definition _make_request_try (method url : string) (params json_data : pyval) : Eff pyval :=
  response ← requests_request method url (HEADERS g) params json_data;
  raise_for_status response;;
  if bool_decide (status_code response = 204) then mret (PDict ∅)
  else response_json response.

Definition _make_request (method endpoint : string) (params json_data : pyval) : Eff pyval :=
  let url := YOUTRACK_URL g +:+ "/api/" +:+ endpoint in
  try_except (_make_request_try method url params json_data)
    [ (is_RequestException, fun e => mret (error_dict (exc_str e)));
      (is_Exception, fun e => mret (error_dict "An unexpected error occurred")) ].

(** An argument with a default is an [option]: [None] is an argument the
    caller left out.  [custom_fields] defaults to Python's [None], which is
    [None] here as well. *)
Definition search_issues (query : string) (fields custom_fields : option string)
    (top skip : option Z) : Eff pyval :=
  let fields := default "idReadable,summary,project(shortName)" fields in
  let top := default 100 top in
  let skip := default 0 skip in
  let endpoint := "issues" in
  let params : gmap string pyval :=
    {[ "query" := PStr query;
       "fields" := PStr fields;
       "$top" := PInt top;
       "$skip" := PInt skip ]} in
  params ← (if truthy custom_fields
            then iadd_str params "fields" ("," +:+ format_str custom_fields)
            else mret params);
  _make_request "GET" endpoint (PDict params) PNone.

Definition get_issue (issue_id : string) (fields custom_fields : option string) : Eff pyval :=
  let fields := default
    "idReadable,summary,description,project(shortName),customFields(projectCustomField(field(name)),value(name,login,fullName,text))"
    fields in
  let endpoint := "issues/" +:+ issue_id in
  let params : gmap string pyval := {[ "fields" := PStr fields ]} in
  params ← (if truthy custom_fields
            then iadd_str params "fields" ("," +:+ format_str custom_fields)
            else mret params);
  _make_request "GET" endpoint (PDict params) PNone.

Definition update_issue (issue_id : string) (data : pyval) (fields : option string) : Eff pyval :=
  let fields := default "idReadable,summary" fields in
  let endpoint := "issues/" +:+ issue_id in
  let params : gmap string pyval := {[ "fields" := PStr fields ]} in
  _make_request "POST" endpoint (PDict params) data.

Definition add_comment (issue_id comment_text : string) (fields : option string) : Eff pyval :=
  let fields := default "id,text,author(login)" fields in
  let endpoint := "issues/" +:+ issue_id +:+ "/comments" in
  let params : gmap string pyval := {[ "fields" := PStr fields ]} in
  let json_data := PDict {[ "text" := PStr comment_text ]} in
  _make_request "POST" endpoint (PDict params) json_data.

(** ** server.py: the tools registered with the protocol runtime *)

Definition youtrack_search_issues (query : string) (fields custom_fields : option string)
    (top skip : option Z) : Eff pyval :=
  let fields := default "idReadable,summary,project(shortName)" fields in
  let top := default 100 top in
  let skip := default 0 skip in
  search_issues query (Some fields) custom_fields (Some top) (Some skip).

Definition youtrack_get_issue (issue_id : string) (fields custom_fields : option string) : Eff pyval :=
  let fields := default
    "idReadable,summary,description,project(shortName),customFields(projectCustomField(field(name)),value(name,login,fullName,text))"
    fields in
  get_issue issue_id (Some fields) custom_fields.

Definition youtrack_update_issue (issue_id : string) (data : pyval) (fields : option string) : Eff pyval :=
  let fields := default "idReadable,summary" fields in
  update_issue issue_id data (Some fields).

Definition youtrack_add_comment (issue_id comment_text : string) (fields : option string) : Eff pyval :=
  let fields := default "id,text,author(login)" fields in
  add_comment issue_id comment_text (Some fields).

End youtrack_api.

(** ** server.py: the application context *)

Record AppContext : Type := mkAppContext {
  youtrack_url : string;
  youtrack_token : string;
  read_only : bool
}.

(** The context that [app_lifespan] yields at startup. *)
Definition app_lifespan (environ : gmap string string) : AppContext :=
  {| youtrack_url := environ_get environ "YOUTRACK_URL" "";
     youtrack_token := environ_get environ "YOUTRACK_TOKEN" "";
     read_only := bool_decide (lower (environ_get environ "YOUTRACK_READ_ONLY" "false") = "true") |}.

(** ** Field projection strings *)

Definition is_comma (c : ascii) : bool := Ascii.eqb c ","%char.

Definition leading_comma (s : string) : bool :=
  match s with
  | EmptyString => false
  | String c _ => is_comma c
  end.

Fixpoint trailing_comma (s : string) : bool :=
  match s with
  | EmptyString => false
  | String c EmptyString => is_comma c
  | String _ s' => trailing_comma s'
  end.

(** Two commas in a row somewhere in the string. *)
Fixpoint doubled_comma (s : string) : bool :=
  match s with
  | EmptyString => false
  | String c s' => (is_comma c && leading_comma s') || doubled_comma s'
  end.

Definition well_separated (s : string) : bool :=
  negb (leading_comma s) && negb (trailing_comma s) && negb (doubled_comma s).

(** A valid projection: a non-empty list whose separators are in place. *)
Definition valid_projection (s : string) : bool :=
  negb (String.eqb s "") && well_separated s.

(** A valid [custom_fields] argument: absent, empty, or a valid projection. *)
Definition valid_custom_fields (c : option string) : bool :=
  match c with
  | None => true
  | Some s => String.eqb s "" || valid_projection s
  end.

(** The [fields] query parameter of a call, when it is a string. *)
Definition fields_param (r : Request) : option string :=
  match req_params r with
  | PDict d => match d !! "fields" with Some (PStr s) => Some s | _ => None end
  | _ => None
  end.

(** A query parameter of a call. *)
Definition query_param (r : Request) (key : string) : option pyval :=
  match req_params r with
  | PDict d => d !! key
  | _ => None
  end.

(** [isinstance(v, dict) and "error" in v]: how a caller tells a failure
    from a result. *)
Definition is_error_result (v : pyval) : bool :=
  match v with
  | PDict d => bool_decide (is_Some (d !! "error"))
  | _ => false
  end.

(** ** youtrack_api.py: the example run of the module *)

(** [isinstance(v, dict)] *)
Definition is_dict (v : pyval) : bool :=
  match v with
  | PDict _ => true
  | _ => false
  end.

(** [type(v).__name__] *)
Definition type_name (v : pyval) : string :=
  match v with
  | PNone => "NoneType"
  | PBool _ => "bool"
  | PInt _ => "int"
  | PFloat _ => "float"
  | PStr _ => "str"
  | PList _ => "list"
  | PDict _ => "dict"
  end.

(** [v.get(key, dflt)]: only a mapping has the method. *)
Definition py_get (v : pyval) (key : string) (dflt : pyval) : Eff pyval :=
  match v with
  | PDict d => mret (default dflt (d !! key))
  | _ => raise (mkException (OtherException "AttributeError")
                  ("'" +:+ type_name v +:+ "' object has no attribute 'get'"))
  end.

(** What the example run prints, by the values it puts into the lines: the
    request to configure the module, the details of the issue, or the
    failure with what [get_issue] returned. *)
Inductive main_output : Type :=
  | PleaseConfigure
  | IssueDetails (idReadable summary project_shortName : pyval)
  | ErrorGettingDetails (issue_details : pyval).

(** The block under [if __name__ == "__main__"]. *)
Definition main (g : Globals) : Eff main_output :=
  if bool_decide (YOUTRACK_URL g = "YOUR_YOUTRACK_INSTANCE_URL")
     || bool_decide (YOUTRACK_TOKEN g = "YOUR_YOUTRACK_PERMANENT_TOKEN")
  then mret PleaseConfigure
  else
    let issue_id_to_test := "FXS-1673" in
    issue_details ← get_issue g issue_id_to_test None None;
    if is_dict issue_details && negb (is_error_result issue_details) then
      idReadable ← py_get issue_details "idReadable" (PStr "N/A");
      summary ← py_get issue_details "summary" (PStr "N/A");
      project ← py_get issue_details "project" (PDict ∅);
      shortName ← py_get project "shortName" (PStr "N/A");
      mret (IssueDetails idReadable summary shortName)
    else mret (ErrorGettingDetails issue_details).

(** ** server.py: command line, start of the script and the info resource *)

(** The parsed command line. *)
Record Namespace : Type := mkNamespace {
  args_read_only : bool;
  args_youtrack_url : option string;
  args_youtrack_token : option string
}.

(** [parse_arguments], after [parser.parse_args()]: the environment as the
    function leaves it. *)
Definition parse_arguments (args : Namespace) (environ : gmap string string)
    : gmap string string :=
  let environ :=
    if truthy (args_youtrack_url args)
    then <["YOUTRACK_URL" := default "" (args_youtrack_url args)]> environ
    else environ in
  let environ :=
    if truthy (args_youtrack_token args)
    then <["YOUTRACK_TOKEN" := default "" (args_youtrack_token args)]> environ
    else environ in
  let environ :=
    if args_read_only args then <["YOUTRACK_READ_ONLY" := "true"]> environ else environ in
  environ.

(** The script from the import of [youtrack_api] to the call of
    [parse_arguments]: the module globals are bound at the import, from the
    environment as it is then; the command line is written into the
    environment afterwards. *)
Record Process : Type := mkProcess {
  proc_api : Globals;
  proc_environ : gmap string string
}.

Definition run_script (args : Namespace) (environ : gmap string string) : Process :=
  let api := import_youtrack_api environ in
  let environ := parse_arguments args environ in
  {| proc_api := api; proc_environ := environ |}.

(** The globals of [server.py] that the info resource reads. *)
Record ServerGlobals : Type := mkServerGlobals {
  server_name : string;
  log_level : string
}.

(** The resource [server://info]. *)
Definition server_info (sg : ServerGlobals) (environ : gmap string string) : Eff pyval :=
  try_except
    (let result : gmap string pyval :=
       {[ "status" := PStr "ok";
          "version" := PStr "0.2.0";
          "server" := PStr (server_name sg);
          "youtrack_url" := PStr (environ_get environ "YOUTRACK_URL" "Not configured");
          "host_binding" := PStr (environ_get environ "MCP_HOST" "0.0.0.0");
          "port" := PStr (environ_get environ "MCP_PORT" "8000");
          "debug_mode" := PBool (bool_decide (log_level sg = "DEBUG")) ]} in
     mret (PDict result))
    [ (is_Exception,
       fun e => mret (PDict {[ "status" := PStr "error"; "message" := PStr (exc_str e) ]})) ].

(** The header of a call. *)
Definition header (r : Request) (name : string) : option string := req_headers r !! name.

(** ** The diagnostic lines *)

(** The operations above are the code under a standard output that takes
    every line.  The module [Diag] follows the code with its [print] calls:
    a line is written to the standard output, which may refuse it, and then
    [print] raises.  A line is given by the place that prints it and the
    values put into it; the text is a function of these.  The [logger] calls
    of the facade do not raise and are left out. *)
Module Diag.

Inductive Line : Type :=
  | SearchingLine (query : string)                       (* search_issues *)
  | GettingLine (issue_id : string)                      (* get_issue *)
  | UpdatingLine (issue_id : string) (data : pyval)      (* update_issue *)
  | AddingLine (issue_id comment_text : string)          (* add_comment: the first 50 characters *)
  | RequestErrorLine (url : string) (e : PyException)    (* first except clause *)
  | UnexpectedErrorLine (e : PyException).               (* second except clause *)

(** What a run does that can be seen from outside, in order. *)
Inductive Event : Type :=
  | Called (r : Request)
  | Printed (l : Line).

(** The world: how the HTTP library answers a call, and whether the standard
    output takes a line ([None]) or [print] raises. *)
Record World : Type := mkWorld {
  transport : Transport;
  stdout : Line -> option PyException
}.

Definition IO (A : Type) : Type := World -> list Event * outcome A.

#[global] Instance IO_ret : MRet IO := fun A a _ => ([], Returns a).

#[global] Instance IO_bind : MBind IO := fun A B k m w =>
  match m w with
  | (events, Returns a) => let '(events', o) := k a w in (events ++ events', o)
  | (events, Raises e) => (events, Raises e)
  end.

(** A computation that only calls the HTTP library. *)
Definition lift {A} (m : Eff A) : IO A :=
  fun w => let '(calls, o) := m (transport w) in (Called <$> calls, o).

Definition print (l : Line) : IO unit :=
  fun w =>
    match stdout w l with
    | None => ([Printed l], Returns tt)
    | Some e => ([], Raises e)
    end.

Definition clause (A : Type) : Type := (PyException -> bool) * (PyException -> IO A).

Fixpoint handle {A} (clauses : list (clause A)) (e : PyException) : IO A :=
  match clauses with
  | [] => fun _ => ([], Raises e)
  | (matches, handler) :: rest => if matches e then handler e else handle rest e
  end.

(** An exception raised by a handler leaves the statement: the clauses guard
    the body only. *)
Definition try_except {A} (body : IO A) (clauses : list (clause A)) : IO A :=
  fun w =>
    match body w with
    | (events, Returns a) => (events, Returns a)
    | (events, Raises e) => let '(events', o) := handle clauses e w in (events ++ events', o)
    end.

(** The HTTP calls of a run, the lines it wrote, and its outcome. *)
Fixpoint calls_of (events : list Event) : list Request :=
  match events with
  | [] => []
  | Called r :: events => r :: calls_of events
  | Printed _ :: events => calls_of events
  end.
Fixpoint lines_of (events : list Event) : list Line :=
  match events with
  | [] => []
  | Called _ :: events => lines_of events
  | Printed l :: events => l :: lines_of events
  end.
Definition calls {A} (m : IO A) (w : World) : list Request := calls_of (fst (m w)).
Definition printed {A} (m : IO A) (w : World) : list Line := lines_of (fst (m w)).
Definition result {A} (m : IO A) (w : World) : outcome A := snd (m w).

Section youtrack_api.
Context (g : Globals).

Definition _make_request (method endpoint : string) (params json_data : pyval) : IO pyval :=
  let url := YOUTRACK_URL g +:+ "/api/" +:+ endpoint in
  try_except (lift (_make_request_try g method url params json_data))
    [ (is_RequestException,
       fun e => print (RequestErrorLine url e);;
                mret (PDict {[ "error" := PStr (exc_str e) ]}));
      (is_Exception,
       fun e => print (UnexpectedErrorLine e);;
                mret (PDict {[ "error" := PStr "An unexpected error occurred" ]})) ].

Definition search_issues (query : string) (fields custom_fields : option string)
    (top skip : option Z) : IO pyval :=
  let fields := default "idReadable,summary,project(shortName)" fields in
  let top := default 100 top in
  let skip := default 0 skip in
  let endpoint := "issues" in
  let params : gmap string pyval :=
    {[ "query" := PStr query;
       "fields" := PStr fields;
       "$top" := PInt top;
       "$skip" := PInt skip ]} in
  params ← lift (if truthy custom_fields
                 then iadd_str params "fields" ("," +:+ format_str custom_fields)
                 else mret params);
  print (SearchingLine query);;
  _make_request "GET" endpoint (PDict params) PNone.

Definition get_issue (issue_id : string) (fields custom_fields : option string) : IO pyval :=
  let fields := default
    "idReadable,summary,description,project(shortName),customFields(projectCustomField(field(name)),value(name,login,fullName,text))"
    fields in
  let endpoint := "issues/" +:+ issue_id in
  let params : gmap string pyval := {[ "fields" := PStr fields ]} in
  params ← lift (if truthy custom_fields
                 then iadd_str params "fields" ("," +:+ format_str custom_fields)
                 else mret params);
  print (GettingLine issue_id);;
  _make_request "GET" endpoint (PDict params) PNone.

Definition update_issue (issue_id : string) (data : pyval) (fields : option string) : IO pyval :=
  let fields := default "idReadable,summary" fields in
  let endpoint := "issues/" +:+ issue_id in
  let params : gmap string pyval := {[ "fields" := PStr fields ]} in
  print (UpdatingLine issue_id data);;
  _make_request "POST" endpoint (PDict params) data.

Definition add_comment (issue_id comment_text : string) (fields : option string) : IO pyval :=
  let fields := default "id,text,author(login)" fields in
  let endpoint := "issues/" +:+ issue_id +:+ "/comments" in
  let params : gmap string pyval := {[ "fields" := PStr fields ]} in
  let json_data := PDict {[ "text" := PStr comment_text ]} in
  print (AddingLine issue_id comment_text);;
  _make_request "POST" endpoint (PDict params) json_data.

Definition youtrack_search_issues (query : string) (fields custom_fields : option string)
    (top skip : option Z) : IO pyval :=
  let fields := default "idReadable,summary,project(shortName)" fields in
  let top := default 100 top in
  let skip := default 0 skip in
  search_issues query (Some fields) custom_fields (Some top) (Some skip).

Definition youtrack_get_issue (issue_id : string) (fields custom_fields : option string) : IO pyval :=
  let fields := default
    "idReadable,summary,description,project(shortName),customFields(projectCustomField(field(name)),value(name,login,fullName,text))"
    fields in
  get_issue issue_id (Some fields) custom_fields.

Definition youtrack_update_issue (issue_id : string) (data : pyval) (fields : option string) : IO pyval :=
  let fields := default "idReadable,summary" fields in
  update_issue issue_id data (Some fields).

Definition youtrack_add_comment (issue_id comment_text : string) (fields : option string) : IO pyval :=
  let fields := default "id,text,author(login)" fields in
  add_comment issue_id comment_text (Some fields).

End youtrack_api.

(** A standard output that takes every line, and one that is closed. *)
Definition stdout_open : Line -> option PyException := fun _ => None.
Definition stdout_closed : Line -> option PyException :=
  fun _ => Some (mkException (OtherException "ValueError") "I/O operation on closed file.").

End Diag.

(** ** Test transports *)

Definition ok_response (status : Z) (body : outcome pyval) : Response :=
  mkResponse status "" "" body.

Definition net_const (o : outcome Response) : Transport := fun _ => o.

Definition demo_globals : Globals := mkGlobals "https://yt.example" "perm:token".

(** * Properties *)

(** ** Separators under concatenation *)

Lemma leading_comma_app (a b : string) :
  leading_comma (a +:+ b) = match a with EmptyString => leading_comma b | _ => leading_comma a end.
Proof. by destruct a. Qed.

Lemma trailing_comma_app (a b : string) :
  trailing_comma (a +:+ b) = match b with EmptyString => trailing_comma a | _ => trailing_comma b end.
Proof.
  induction a as [|c a IH]; simpl.
  - by destruct b.
  - rewrite IH. destruct a as [|c' a]; simpl; by destruct b.
Qed.

Lemma doubled_comma_app (a b : string) :
  doubled_comma (a +:+ b)
  = doubled_comma a || doubled_comma b || (trailing_comma a && leading_comma b).
Proof.
  induction a as [|c a IH]; simpl.
  - by rewrite orb_false_r.
  - rewrite IH, leading_comma_app.
    destruct a as [|c' a]; simpl.
    + destruct (is_comma c), (leading_comma b), (doubled_comma b); done.
    + destruct (is_comma c), (is_comma c'), (doubled_comma (String c' a)),
        (doubled_comma b), (trailing_comma (String c' a)), (leading_comma b); done.
Qed.

Lemma valid_projection_join (f c : string) :
  valid_projection f = true → valid_projection c = true →
  valid_projection (f +:+ "," +:+ c) = true.
Proof.
  unfold valid_projection, well_separated.
  rewrite !andb_true_iff, !negb_true_iff.
  intros (Hf & (Hfl & Hft) & Hfd) (Hc & (Hcl & Hct) & Hcd).
  destruct f as [|x f]; [done|]. destruct c as [|y c]; [done|].
  rewrite leading_comma_app, trailing_comma_app, doubled_comma_app.
  rewrite Hfl, Hft, Hfd.
  change ("," +:+ String y c) with (String "," (String y c)).
  change (trailing_comma (String "," (String y c))) with (trailing_comma (String y c)).
  change (doubled_comma (String "," (String y c)))
    with (leading_comma (String y c) || doubled_comma (String y c)).
  by rewrite Hcl, Hct, Hcd.
Qed.

(** ** The adapter *)

Ltac run_eff :=
  unfold issued, result, try_except, requests_request, response_json, raise_for_status,
    raise, mbind, Eff_bind, mret, Eff_ret; simpl.

Section adapter.
Context (g : Globals) (method endpoint : string) (params json_data : pyval).

Local Abbreviation url := (YOUTRACK_URL g +:+ "/api/" +:+ endpoint).
Local Abbreviation req := (mkRequest method url (HEADERS g) params json_data).

(** The guarded block issues exactly one call and then follows the answer. *)
Lemma make_request_try_run (net : Transport) :
  _make_request_try g method url params json_data net =
  ([req],
   match net req with
   | Raises e => Raises e
   | Returns r =>
       if bool_decide (400 ≤ status_code r < 500) then
         Raises (mkException (Requests HTTPError) (http_error_msg "Client" r))
       else if bool_decide (500 ≤ status_code r < 600) then
         Raises (mkException (Requests HTTPError) (http_error_msg "Server" r))
       else if bool_decide (status_code r = 204) then Returns (PDict ∅)
       else resp_json r
   end).
Proof.
  unfold _make_request_try. run_eff.
  destruct (net req) as [r|e]; [|done].
  repeat case_bool_decide; simpl; done.
Qed.

(** Both clauses return, so whatever the guarded block raises is turned
    into an error mapping. *)
Lemma make_request_run (net : Transport) :
  _make_request g method endpoint params json_data net =
  ([req],
   match result (_make_request_try g method url params json_data) net with
   | Returns v => Returns v
   | Raises e =>
       Returns (error_dict (if is_RequestException e then exc_str e
                            else "An unexpected error occurred"))
   end).
Proof.
  unfold _make_request, try_except, result.
  rewrite make_request_try_run. simpl.
  destruct (net req) as [r|e]; simpl.
  - repeat case_bool_decide; simpl; try done.
    destruct (resp_json r) as [v|e]; [done|].
    unfold is_RequestException, is_Exception. by destruct (exc_class e).
  - unfold is_RequestException, is_Exception. by destruct (exc_class e).
Qed.

Lemma make_request_issued (net : Transport) :
  issued (_make_request g method endpoint params json_data) net = [req].
Proof. unfold issued. by rewrite make_request_run. Qed.

Lemma make_request_result (net : Transport) :
  result (_make_request g method endpoint params json_data) net =
  match result (_make_request_try g method url params json_data) net with
  | Returns v => Returns v
  | Raises e =>
      Returns (error_dict (if is_RequestException e then exc_str e
                           else "An unexpected error occurred"))
  end.
Proof. unfold result at 1. by rewrite make_request_run. Qed.

Lemma make_request_try_result (net : Transport) :
  result (_make_request_try g method url params json_data) net =
  match net req with
  | Raises e => Raises e
  | Returns r =>
      if bool_decide (400 ≤ status_code r < 500) then
        Raises (mkException (Requests HTTPError) (http_error_msg "Client" r))
      else if bool_decide (500 ≤ status_code r < 600) then
        Raises (mkException (Requests HTTPError) (http_error_msg "Server" r))
      else if bool_decide (status_code r = 204) then Returns (PDict ∅)
      else resp_json r
  end.
Proof. unfold result. by rewrite make_request_try_run. Qed.
End adapter.

(** ** Failures of the call *)

(** A refused connection comes back as the library's own message. *)
Example make_request_connection_refused :
  result (_make_request demo_globals "GET" "issues" PNone PNone)
    (net_const (Raises (mkException (Requests ConnectionError) "Connection refused")))
  = Returns (error_dict "Connection refused").
Proof. reflexivity. Qed.

(** A 404 comes back as the message of [raise_for_status]. *)
Example make_request_not_found :
  result (_make_request demo_globals "GET" "issues/DEMO-1" PNone PNone)
    (net_const (Returns (mkResponse 404 "Not Found" "https://yt.example/api/issues/DEMO-1"
                           (Returns PNone))))
  = Returns (error_dict "404 Client Error: Not Found for url: https://yt.example/api/issues/DEMO-1").
Proof. reflexivity. Qed.

(** C7: a call answered with status 204 returns the empty mapping, which is
    neither an error mapping nor [None]. *)
Theorem C7_no_content_is_empty_mapping (g : Globals) (method endpoint : string)
    (params json_data : pyval) (net : Transport) (req : Request) (r : Response) :
  req ∈ issued (_make_request g method endpoint params json_data) net →
  net req = Returns r →
  status_code r = 204 →
  result (_make_request g method endpoint params json_data) net = Returns (PDict ∅) ∧
  is_error_result (PDict ∅) = false ∧
  PDict ∅ ≠ PNone.
Proof.
  rewrite make_request_issued, list_elem_of_singleton. intros -> Hr Hs.
  rewrite make_request_result, make_request_try_result, Hr.
  repeat case_bool_decide; try done; lia.
Qed.

Lemma C7_demo_instance :
  result (_make_request demo_globals "POST" "issues/DEMO-1"
            (PDict {[ "fields" := PStr "idReadable" ]}) (PDict {[ "summary" := PStr "x" ]}))
    (net_const (Returns (ok_response 204 (Raises (mkException (Requests JSONDecodeError) "")))))
  = Returns (PDict ∅) ∧
  is_error_result (PDict ∅) = false ∧
  PDict ∅ ≠ PNone.
Proof.
  apply (C7_no_content_is_empty_mapping demo_globals "POST" "issues/DEMO-1"
           (PDict {[ "fields" := PStr "idReadable" ]}) (PDict {[ "summary" := PStr "x" ]})
           (net_const (Returns (ok_response 204 (Raises (mkException (Requests JSONDecodeError) "")))))
           (mkRequest "POST" "https://yt.example/api/issues/DEMO-1" (HEADERS demo_globals)
              (PDict {[ "fields" := PStr "idReadable" ]}) (PDict {[ "summary" := PStr "x" ]}))
           (ok_response 204 (Raises (mkException (Requests JSONDecodeError) "")))).
  - apply list_elem_of_here.
  - reflexivity.
  - reflexivity.
Defined.

(** C8: a failure of a class outside the HTTP library's comes back as exactly
    [{"error": "An unexpected error occurred"}]; its detail is gone, so two
    such failures with different causes give the same result. *)
Theorem C8_unexpected_failures_are_generic (g : Globals) (method endpoint : string)
    (params json_data : pyval) (net1 net2 : Transport) (e1 e2 : PyException) :
  result (_make_request_try g method (YOUTRACK_URL g +:+ "/api/" +:+ endpoint)
            params json_data) net1 = Raises e1 →
  result (_make_request_try g method (YOUTRACK_URL g +:+ "/api/" +:+ endpoint)
            params json_data) net2 = Raises e2 →
  is_RequestException e1 = false →
  is_RequestException e2 = false →
  result (_make_request g method endpoint params json_data) net1
    = Returns (PDict {[ "error" := PStr "An unexpected error occurred" ]}) ∧
  result (_make_request g method endpoint params json_data) net2
    = result (_make_request g method endpoint params json_data) net1.
Proof.
  intros H1 H2 He1 He2. rewrite !make_request_result, H1, H2, He1, He2. done.
Qed.

Lemma C8_demo_instance :
  result (_make_request demo_globals "GET" "issues" PNone PNone)
    (net_const (Raises (mkException (OtherException "TypeError") "not serializable")))
    = Returns (PDict {[ "error" := PStr "An unexpected error occurred" ]}) ∧
  result (_make_request demo_globals "GET" "issues" PNone PNone)
    (net_const (Returns (ok_response 200
       (Raises (mkException (OtherException "ValueError") "Expecting value")))))
    = result (_make_request demo_globals "GET" "issues" PNone PNone)
        (net_const (Raises (mkException (OtherException "TypeError") "not serializable"))).
Proof.
  apply (C8_unexpected_failures_are_generic demo_globals "GET" "issues" PNone PNone
           (net_const (Raises (mkException (OtherException "TypeError") "not serializable")))
           (net_const (Returns (ok_response 200
              (Raises (mkException (OtherException "ValueError") "Expecting value")))))
           (mkException (OtherException "TypeError") "not serializable")
           (mkException (OtherException "ValueError") "Expecting value"));
    reflexivity.
Defined.

(** C9: a success status other than 204 whose body does not decode gives a
    mapping with the key [error], and nothing is raised: the same result
    that a call failing with that exception gives. *)
Theorem C9_malformed_body_is_an_error_mapping (g : Globals) (method endpoint : string)
    (params json_data : pyval) (net : Transport) (req : Request) (r : Response)
    (e : PyException) :
  req ∈ issued (_make_request g method endpoint params json_data) net →
  net req = Returns r →
  200 ≤ status_code r < 300 →
  status_code r ≠ 204 →
  resp_json r = Raises e →
  ∃ v, result (_make_request g method endpoint params json_data) net = Returns v ∧
       is_error_result v = true ∧
       (∃ msg, v = error_dict msg) ∧
       result (_make_request g method endpoint params json_data) (net_const (Raises e))
         = Returns v.
Proof.
  rewrite make_request_issued, list_elem_of_singleton. intros -> Hr Hs H204 He.
  rewrite !make_request_result, !make_request_try_result, Hr. unfold net_const.
  repeat case_bool_decide; try lia. rewrite He.
  eexists. split; [done|]. split; [|split; [by eexists|done]].
  unfold is_error_result, error_dict. rewrite lookup_singleton_eq. done.
Qed.

Lemma C9_demo_instance :
  ∃ v, result (_make_request demo_globals "GET" "issues" PNone PNone)
         (net_const (Returns (ok_response 200
            (Raises (mkException (Requests JSONDecodeError) "Expecting value")))))
       = Returns v ∧
       is_error_result v = true ∧
       (∃ msg, v = error_dict msg) ∧
       result (_make_request demo_globals "GET" "issues" PNone PNone)
         (net_const (Raises (mkException (Requests JSONDecodeError) "Expecting value")))
       = Returns v.
Proof.
  apply (C9_malformed_body_is_an_error_mapping demo_globals "GET" "issues" PNone PNone
           (net_const (Returns (ok_response 200
              (Raises (mkException (Requests JSONDecodeError) "Expecting value")))))
           (mkRequest "GET" "https://yt.example/api/issues" (HEADERS demo_globals) PNone PNone)
           (ok_response 200 (Raises (mkException (Requests JSONDecodeError) "Expecting value")))
           (mkException (Requests JSONDecodeError) "Expecting value")).
  - apply list_elem_of_here.
  - reflexivity.
  - simpl. lia.
  - simpl. lia.
  - reflexivity.
Defined.

(** ** The operations *)

(** The projection that [search_issues] and [get_issue] send. *)
Lemma iadd_str_fields_run (d : gmap string pyval) (fields suffix : string) (net : Transport) :
  d !! "fields" = Some (PStr fields) →
  iadd_str d "fields" suffix net = ([], Returns (<["fields" := PStr (fields +:+ suffix)]> d)).
Proof. intros Hd. unfold iadd_str. by rewrite Hd. Qed.

Lemma search_issues_run (g : Globals) (query : string) (fields custom_fields : option string)
    (top skip : option Z) (net : Transport) :
  search_issues g query fields custom_fields top skip net =
  _make_request g "GET" "issues"
    (PDict {[ "query" := PStr query;
              "fields" := PStr (if truthy custom_fields
                                then default "idReadable,summary,project(shortName)" fields
                                       +:+ "," +:+ format_str custom_fields
                                else default "idReadable,summary,project(shortName)" fields);
              "$top" := PInt (default 100 top);
              "$skip" := PInt (default 0 skip) ]})
    PNone net.
Proof.
  unfold search_issues. destruct (truthy custom_fields).
  - unfold mbind, Eff_bind.
    rewrite (iadd_str_fields_run _ (default "idReadable,summary,project(shortName)" fields));
      [|by rewrite lookup_insert_ne, lookup_insert_eq].
    rewrite (insert_insert_ne _ "fields" "query") by done.
    rewrite insert_insert_eq.
    by destruct (_make_request _ _ _ _ _ net).
  - unfold mbind, Eff_bind, mret, Eff_ret.
    by destruct (_make_request _ _ _ _ _ net).
Qed.

Lemma get_issue_run (g : Globals) (issue_id : string) (fields custom_fields : option string)
    (net : Transport) :
  get_issue g issue_id fields custom_fields net =
  _make_request g "GET" ("issues/" +:+ issue_id)
    (PDict {[ "fields" :=
                PStr (if truthy custom_fields
                      then default "idReadable,summary,description,project(shortName),customFields(projectCustomField(field(name)),value(name,login,fullName,text))" fields
                             +:+ "," +:+ format_str custom_fields
                      else default "idReadable,summary,description,project(shortName),customFields(projectCustomField(field(name)),value(name,login,fullName,text))" fields) ]})
    PNone net.
Proof.
  unfold get_issue. destruct (truthy custom_fields).
  - unfold mbind, Eff_bind.
    rewrite (iadd_str_fields_run _ (default "idReadable,summary,description,project(shortName),customFields(projectCustomField(field(name)),value(name,login,fullName,text))" fields));
      [|by rewrite lookup_singleton_eq].
    rewrite insert_singleton_eq.
    by destruct (_make_request _ _ _ _ _ net).
  - unfold mbind, Eff_bind, mret, Eff_ret.
    by destruct (_make_request _ _ _ _ _ net).
Qed.

(** C1: the [fields] query parameter that [search_issues] and [get_issue]
    send is [fields] when [custom_fields] is absent or empty, and
    [fields + "," + custom_fields] otherwise; for a valid projection and valid
    custom fields it has no leading, trailing or doubled comma. *)
Theorem C1_fields_parameter (g : Globals) (net : Transport) (query issue_id fields : string)
    (custom_fields : option string) (top skip : option Z) :
  ∃ sent : string,
    fields_param <$> issued (search_issues g query (Some fields) custom_fields top skip) net
      = [Some sent] ∧
    fields_param <$> issued (get_issue g issue_id (Some fields) custom_fields) net
      = [Some sent] ∧
    (custom_fields = None ∨ custom_fields = Some "" → sent = fields) ∧
    (∀ c, custom_fields = Some c → c ≠ "" → sent = fields +:+ "," +:+ c) ∧
    (valid_projection fields = true → valid_custom_fields custom_fields = true →
     well_separated sent = true).
Proof.
  exists (if truthy custom_fields then fields +:+ "," +:+ format_str custom_fields else fields).
  unfold issued. rewrite search_issues_run, get_issue_run, !make_request_run.
  unfold fields_param. simpl.
  rewrite lookup_insert_ne, lookup_insert_eq, lookup_singleton_eq by done.
  do 2 (split; [done|]).
  destruct custom_fields as [[|a c]|]; simpl.
  - repeat split; [by intros ? [= <-]|].
    intros Hf _. unfold valid_projection in Hf. by apply andb_true_iff in Hf as [_ ?].
  - split; [by intros [|]|]. split; [by intros ? [= <-]|].
    intros Hf Hc. pose proof (valid_projection_join fields (String a c) Hf Hc) as Hv.
    unfold valid_projection in Hv. by apply andb_true_iff in Hv as [_ ?].
  - repeat split; [done|].
    intros Hf _. unfold valid_projection in Hf. by apply andb_true_iff in Hf as [_ ?].
Qed.

Lemma C1_demo_instance :
  valid_projection "idReadable,summary" = true ∧
  valid_custom_fields (Some "State,Priority") = true ∧
  ∃ sent : string,
    fields_param <$> issued (search_issues demo_globals "project: DEMO"
                               (Some "idReadable,summary") (Some "State,Priority") None None)
                      (net_const (Returns (ok_response 200 (Returns (PList [])))))
      = [Some sent] ∧
    fields_param <$> issued (get_issue demo_globals "DEMO-1"
                               (Some "idReadable,summary") (Some "State,Priority"))
                      (net_const (Returns (ok_response 200 (Returns (PList [])))))
      = [Some sent] ∧
    (Some "State,Priority" = None ∨ Some "State,Priority" = Some "" →
     sent = "idReadable,summary") ∧
    (∀ c, Some "State,Priority" = Some c → c ≠ "" → sent = "idReadable,summary" +:+ "," +:+ c) ∧
    (valid_projection "idReadable,summary" = true →
     valid_custom_fields (Some "State,Priority") = true →
     well_separated sent = true).
Proof.
  split; [reflexivity|]. split; [reflexivity|].
  apply (C1_fields_parameter demo_globals
           (net_const (Returns (ok_response 200 (Returns (PList [])))))
           "project: DEMO" "DEMO-1" "idReadable,summary" (Some "State,Priority") None None).
Defined.

(** Without the validity of the inputs the separators can go wrong: an empty
    [fields] with custom fields gives a leading comma. *)
Example empty_fields_give_a_leading_comma :
  fields_param <$> issued (get_issue demo_globals "DEMO-1" (Some "") (Some "State"))
                    (net_const (Returns (ok_response 200 (Returns PNone))))
  = [Some ",State"].
Proof. reflexivity. Qed.

(** C4: for every query and all integers [top] and [skip], [search_issues]
    issues one GET call to [{base_url}/api/issues] whose query parameters
    hold [query], [$top = top] and [$skip = skip] as given, and the field
    projection, which is [idReadable,summary,project(shortName)] when none is
    given. *)
Theorem C4_search_issues_request (g : Globals) (net : Transport) (query : string)
    (fields custom_fields : option string) (top skip : Z) :
  ∃ r : Request,
    issued (search_issues g query fields custom_fields (Some top) (Some skip)) net = [r] ∧
    req_method r = "GET" ∧
    req_url r = YOUTRACK_URL g +:+ "/api/issues" ∧
    query_param r "query" = Some (PStr query) ∧
    query_param r "$top" = Some (PInt top) ∧
    query_param r "$skip" = Some (PInt skip) ∧
    query_param r "fields"
      = Some (PStr (if truthy custom_fields
                    then default "idReadable,summary,project(shortName)" fields
                           +:+ "," +:+ format_str custom_fields
                    else default "idReadable,summary,project(shortName)" fields)) ∧
    (fields = None → custom_fields = None →
     query_param r "fields" = Some (PStr "idReadable,summary,project(shortName)")).
Proof.
  eexists. unfold issued. rewrite search_issues_run, make_request_run.
  unfold query_param. simpl.
  split; [done|]. do 2 (split; [done|]). cbn [req_params].
  rewrite lookup_insert_eq.
  rewrite !(lookup_insert_ne _ "query") by done.
  rewrite !(lookup_insert_ne _ "fields" "$top"), !(lookup_insert_ne _ "fields" "$skip") by done.
  rewrite !lookup_insert_eq, lookup_insert_ne, lookup_singleton_eq by done.
  repeat split. by intros -> ->.
Qed.

(** The example of the specification, with a negative and a large value
    passed through as they are. *)
Example search_issues_demo :
  (λ r, (req_method r, req_url r, query_param r "$top", query_param r "$skip",
         query_param r "fields"))
    <$> issued (search_issues demo_globals "project: DEMO" None None (Some 5) (Some 0))
          (net_const (Returns (ok_response 200 (Returns (PList [])))))
  = [("GET", "https://yt.example/api/issues", Some (PInt 5), Some (PInt 0),
      Some (PStr "idReadable,summary,project(shortName)"))].
Proof. reflexivity. Qed.

Example search_issues_out_of_range :
  (λ r, (query_param r "$top", query_param r "$skip"))
    <$> issued (search_issues demo_globals "project: DEMO" None None
                  (Some (-7)) (Some 1000000000000000000000))
          (net_const (Returns (ok_response 200 (Returns (PList [])))))
  = [(Some (PInt (-7)), Some (PInt 1000000000000000000000))].
Proof. reflexivity. Qed.

(** C5: [update_issue] issues one POST call to [issues/{issue_id}] with
    [data] as it is for the JSON body and [fields], [idReadable,summary] by
    default, as a query parameter, and returns what the adapter returns. *)
Theorem C5_update_issue_request (g : Globals) (net : Transport) (issue_id : string)
    (data : pyval) (fields : option string) :
  issued (update_issue g issue_id data fields) net
    = [ mkRequest "POST" (YOUTRACK_URL g +:+ "/api/issues/" +:+ issue_id) (HEADERS g)
          (PDict {[ "fields" := PStr (default "idReadable,summary" fields) ]}) data ] ∧
  result (update_issue g issue_id data fields) net
    = result (_make_request g "POST" ("issues/" +:+ issue_id)
                (PDict {[ "fields" := PStr (default "idReadable,summary" fields) ]}) data) net.
Proof.
  split; [|done]. unfold update_issue. by rewrite make_request_issued.
Qed.

Example update_issue_demo :
  issued (update_issue demo_globals "DEMO-1" (PDict {[ "summary" := PStr "x" ]}) None)
    (net_const (Returns (ok_response 200 (Returns PNone))))
  = [ mkRequest "POST" "https://yt.example/api/issues/DEMO-1" (HEADERS demo_globals)
        (PDict {[ "fields" := PStr "idReadable,summary" ]})
        (PDict {[ "summary" := PStr "x" ]}) ].
Proof. reflexivity. Qed.

(** C6: [add_comment] issues one POST call to [issues/{issue_id}/comments]
    whose JSON body is exactly [{"text": comment_text}], with [fields],
    [id,text,author(login)] by default, as a query parameter. *)
Theorem C6_add_comment_request (g : Globals) (net : Transport) (issue_id comment_text : string)
    (fields : option string) :
  issued (add_comment g issue_id comment_text fields) net
    = [ mkRequest "POST" (YOUTRACK_URL g +:+ "/api/issues/" +:+ issue_id +:+ "/comments")
          (HEADERS g)
          (PDict {[ "fields" := PStr (default "id,text,author(login)" fields) ]})
          (PDict {[ "text" := PStr comment_text ]}) ] ∧
  result (add_comment g issue_id comment_text fields) net
    = result (_make_request g "POST" ("issues/" +:+ issue_id +:+ "/comments")
                (PDict {[ "fields" := PStr (default "id,text,author(login)" fields) ]})
                (PDict {[ "text" := PStr comment_text ]})) net.
Proof.
  split; [|done]. unfold add_comment. by rewrite make_request_issued.
Qed.

Example add_comment_demo :
  issued (add_comment demo_globals "DEMO-1" "hello" None)
    (net_const (Returns (ok_response 200 (Returns PNone))))
  = [ mkRequest "POST" "https://yt.example/api/issues/DEMO-1/comments" (HEADERS demo_globals)
        (PDict {[ "fields" := PStr "id,text,author(login)" ]})
        (PDict {[ "text" := PStr "hello" ]}) ].
Proof. reflexivity. Qed.

(** ** The tool facade *)

(** C10: each tool returns exactly what its operation returns for the same
    arguments: the facade issues the same call and hands the result, or the
    error mapping, back as it is. *)
Theorem C10_tools_return_the_operation_result (g : Globals) (net : Transport)
    (query issue_id comment_text : string) (data : pyval)
    (fields custom_fields : option string) (top skip : option Z) :
  youtrack_search_issues g query fields custom_fields top skip net
    = search_issues g query fields custom_fields top skip net ∧
  youtrack_get_issue g issue_id fields custom_fields net
    = get_issue g issue_id fields custom_fields net ∧
  youtrack_update_issue g issue_id data fields net
    = update_issue g issue_id data fields net ∧
  youtrack_add_comment g issue_id comment_text fields net
    = add_comment g issue_id comment_text fields net.
Proof.
  unfold youtrack_search_issues, youtrack_get_issue, youtrack_update_issue,
    youtrack_add_comment.
  split; [reflexivity|]. split; [reflexivity|]. split; reflexivity.
Qed.

Example tool_returns_the_error_mapping :
  result (youtrack_get_issue demo_globals "DEMO-1" None None)
    (net_const (Raises (mkException (Requests Timeout) "timed out")))
  = Returns (error_dict "timed out").
Proof. reflexivity. Qed.

(** ** The read-only flag *)

Lemma import_youtrack_api_agree (environ1 environ2 : gmap string string) :
  (∀ k, k ≠ "YOUTRACK_READ_ONLY" → environ1 !! k = environ2 !! k) →
  import_youtrack_api environ1 = import_youtrack_api environ2.
Proof.
  intros Hagree. unfold import_youtrack_api, environ_get.
  by rewrite (Hagree "YOUTRACK_URL"), (Hagree "YOUTRACK_TOKEN").
Qed.

(** C3: [update_issue] and [add_comment] do not consult the read-only flag:
    in a configuration where the flag is true and in one where it is false,
    equal otherwise, they issue the same POST call and give the same
    result. *)
Theorem C3_read_only_flag_is_not_consulted (environ1 environ2 : gmap string string)
    (net : Transport) (issue_id comment_text : string) (data : pyval)
    (fields : option string) :
  (∀ k, k ≠ "YOUTRACK_READ_ONLY" → environ1 !! k = environ2 !! k) →
  read_only (app_lifespan environ1) = true →
  read_only (app_lifespan environ2) = false →
  update_issue (import_youtrack_api environ1) issue_id data fields net
    = update_issue (import_youtrack_api environ2) issue_id data fields net ∧
  add_comment (import_youtrack_api environ1) issue_id comment_text fields net
    = add_comment (import_youtrack_api environ2) issue_id comment_text fields net ∧
  (∃ r, issued (update_issue (import_youtrack_api environ1) issue_id data fields) net = [r] ∧
        req_method r = "POST" ∧ req_json r = data) ∧
  (∃ r, issued (add_comment (import_youtrack_api environ1) issue_id comment_text fields) net = [r] ∧
        req_method r = "POST" ∧ req_json r = PDict {[ "text" := PStr comment_text ]}).
Proof.
  intros Hagree _ _. rewrite (import_youtrack_api_agree _ _ Hagree).
  do 2 (split; [done|]).
  split; eexists; (split; [apply make_request_issued|done]).
Qed.

Lemma C3_demo_instance :
  read_only (app_lifespan (<["YOUTRACK_READ_ONLY" := "true"]> {[ "YOUTRACK_URL" := "https://yt.example" ]}))
    = true ∧
  read_only (app_lifespan (<["YOUTRACK_READ_ONLY" := "false"]> {[ "YOUTRACK_URL" := "https://yt.example" ]}))
    = false ∧
  update_issue
    (import_youtrack_api (<["YOUTRACK_READ_ONLY" := "true"]> {[ "YOUTRACK_URL" := "https://yt.example" ]}))
    "DEMO-1" (PDict {[ "summary" := PStr "x" ]}) None
    (net_const (Returns (ok_response 200 (Returns PNone))))
  = update_issue
      (import_youtrack_api (<["YOUTRACK_READ_ONLY" := "false"]> {[ "YOUTRACK_URL" := "https://yt.example" ]}))
      "DEMO-1" (PDict {[ "summary" := PStr "x" ]}) None
      (net_const (Returns (ok_response 200 (Returns PNone)))).
Proof.
  split; [reflexivity|]. split; [reflexivity|].
  refine (proj1 (C3_read_only_flag_is_not_consulted
           (<["YOUTRACK_READ_ONLY" := "true"]> {[ "YOUTRACK_URL" := "https://yt.example" ]})
           (<["YOUTRACK_READ_ONLY" := "false"]> {[ "YOUTRACK_URL" := "https://yt.example" ]})
           (net_const (Returns (ok_response 200 (Returns PNone))))
           "DEMO-1" "hello" (PDict {[ "summary" := PStr "x" ]}) None _ _ _)).
  - intros k Hk. by rewrite !lookup_insert_ne.
  - reflexivity.
  - reflexivity.
Defined.

(** The flag is read as the facade documents it, whatever the case of the
    letters. *)
Example read_only_flag_values :
  read_only (app_lifespan {[ "YOUTRACK_READ_ONLY" := "True" ]}) = true ∧
  read_only (app_lifespan {[ "YOUTRACK_READ_ONLY" := "1" ]}) = false ∧
  read_only (app_lifespan ∅) = false.
Proof. by vm_compute. Qed.

(** * Further properties of the code *)

(** ** The adapter on the paths of success *)

Lemma make_request_returns (g : Globals) (method endpoint : string)
    (params json_data : pyval) (net : Transport) :
  ∃ v, _make_request g method endpoint params json_data net
       = ([mkRequest method (YOUTRACK_URL g +:+ "/api/" +:+ endpoint) (HEADERS g)
             params json_data], Returns v).
Proof.
  rewrite make_request_run.
  destruct (result (_make_request_try _ _ _ _ _) net); by eexists.
Qed.

Lemma error_dict_is_error (msg : string) : is_error_result (error_dict msg) = true.
Proof. unfold is_error_result, error_dict. by rewrite lookup_singleton_eq. Qed.

(** X1: [get_issue] issues one GET call to [{base_url}/api/issues/{issue_id}]
    with no JSON body and [fields] as its only query parameter; left out, the
    projection is the broad default of the module. *)
Theorem X1_get_issue_request (g : Globals) (net : Transport) (issue_id : string)
    (fields custom_fields : option string) :
  ∃ sent : string,
    issued (get_issue g issue_id fields custom_fields) net
      = [ mkRequest "GET" (YOUTRACK_URL g +:+ "/api/issues/" +:+ issue_id) (HEADERS g)
            (PDict {[ "fields" := PStr sent ]}) PNone ] ∧
    (fields = None → truthy custom_fields = false →
     sent = "idReadable,summary,description,project(shortName),customFields(projectCustomField(field(name)),value(name,login,fullName,text))") ∧
    (∀ f, fields = Some f → truthy custom_fields = false → sent = f).
Proof.
  eexists. unfold issued. rewrite get_issue_run, make_request_run. simpl.
  split; [done|]. split.
  - by intros -> ->.
  - by intros f -> ->.
Qed.

(** X2: the query parameters of [search_issues] are exactly [query],
    [fields], [$top] and [$skip]; with [top] and [skip] left out the call
    asks for 100 issues from the first one, and it carries no JSON body. *)
Theorem X2_search_issues_parameters (g : Globals) (net : Transport) (query : string)
    (fields custom_fields : option string) (top skip : option Z) :
  ∃ (r : Request) (d : gmap string pyval),
    issued (search_issues g query fields custom_fields top skip) net = [r] ∧
    req_params r = PDict d ∧
    dom d = ({[ "query"; "fields"; "$top"; "$skip" ]} : gset string) ∧
    req_json r = PNone ∧
    (top = None → d !! "$top" = Some (PInt 100)) ∧
    (skip = None → d !! "$skip" = Some (PInt 0)).
Proof.
  do 2 eexists. unfold issued. rewrite search_issues_run, make_request_run. simpl.
  split; [done|]. split; [done|]. split.
  - rewrite !dom_insert_L, dom_singleton_L. set_solver.
  - split; [done|]. split; intros ->.
    + rewrite (lookup_insert_ne _ "query"), (lookup_insert_ne _ "fields") by done.
      by rewrite lookup_insert_eq.
    + rewrite (lookup_insert_ne _ "query"), (lookup_insert_ne _ "fields"),
        (lookup_insert_ne _ "$top") by done.
      by rewrite lookup_singleton_eq.
Qed.

(** X4: every call that an operation issues carries the three headers of the
    module and no other: the bearer token of the module, and JSON for both
    [Accept] and [Content-Type], also on a GET call without a body. *)
Theorem X4_calls_carry_the_module_headers (g : Globals) (net : Transport)
    (query issue_id comment_text : string) (data : pyval)
    (fields custom_fields : option string) (top skip : option Z) (r : Request) :
  r ∈ issued (search_issues g query fields custom_fields top skip) net
      ++ issued (get_issue g issue_id fields custom_fields) net
      ++ issued (update_issue g issue_id data fields) net
      ++ issued (add_comment g issue_id comment_text fields) net →
  header r "Authorization" = Some ("Bearer " +:+ YOUTRACK_TOKEN g) ∧
  header r "Accept" = Some "application/json" ∧
  header r "Content-Type" = Some "application/json" ∧
  dom (req_headers r) = ({[ "Authorization"; "Accept"; "Content-Type" ]} : gset string).
Proof.
  unfold issued. rewrite search_issues_run, get_issue_run.
  unfold update_issue, add_comment. rewrite !make_request_run. simpl.
  rewrite !elem_of_cons, elem_of_nil.
  assert (∀ m u p j,
    let r := mkRequest m u (HEADERS g) p j in
    header r "Authorization" = Some ("Bearer " +:+ YOUTRACK_TOKEN g) ∧
    header r "Accept" = Some "application/json" ∧
    header r "Content-Type" = Some "application/json" ∧
    dom (req_headers r) = ({[ "Authorization"; "Accept"; "Content-Type" ]} : gset string))
    as Hh.
  { intros m u p j. unfold header, HEADERS. simpl.
    split; [by rewrite lookup_insert_eq|].
    split; [by rewrite lookup_insert_ne, lookup_insert_eq|].
    split; [by rewrite !lookup_insert_ne, lookup_singleton_eq|].
    rewrite !dom_insert_L, dom_singleton_L. set_solver. }
  intros [->|[->|[->|[->|[]]]]]; apply Hh.
Qed.

Lemma X4_demo_instance :
  header (mkRequest "GET" "https://yt.example/api/issues/DEMO-1" (HEADERS demo_globals)
            (PDict {[ "fields" := PStr "idReadable" ]}) PNone) "Authorization"
    = Some "Bearer perm:token".
Proof.
  refine (proj1 (X4_calls_carry_the_module_headers demo_globals
           (net_const (Returns (ok_response 200 (Returns PNone))))
           "project: DEMO" "DEMO-1" "hello" PNone (Some "idReadable") None None None
           (mkRequest "GET" "https://yt.example/api/issues/DEMO-1" (HEADERS demo_globals)
              (PDict {[ "fields" := PStr "idReadable" ]}) PNone) _)).
  apply elem_of_app. right. apply elem_of_app. left. apply list_elem_of_here.
Defined.

(** X5: when the status is outside 400..599 and is not 204, and the body
    decodes, the adapter returns the decoded value as it is, whatever its
    shape. *)
Theorem X5_decoded_body_is_returned (g : Globals) (method endpoint : string)
    (params json_data : pyval) (net : Transport) (req : Request) (r : Response) (v : pyval) :
  req ∈ issued (_make_request g method endpoint params json_data) net →
  net req = Returns r →
  ¬ (400 ≤ status_code r < 600) →
  status_code r ≠ 204 →
  resp_json r = Returns v →
  result (_make_request g method endpoint params json_data) net = Returns v.
Proof.
  rewrite make_request_issued, list_elem_of_singleton. intros -> Hr Hs H204 Hv.
  rewrite make_request_result, make_request_try_result, Hr.
  repeat case_bool_decide; try lia. by rewrite Hv.
Qed.

Lemma X5_demo_instance :
  result (_make_request demo_globals "GET" "issues" PNone PNone)
    (net_const (Returns (ok_response 301 (Returns (PList [PInt 1; PNone])))))
  = Returns (PList [PInt 1; PNone]).
Proof.
  apply (X5_decoded_body_is_returned demo_globals "GET" "issues" PNone PNone
           (net_const (Returns (ok_response 301 (Returns (PList [PInt 1; PNone])))))
           (mkRequest "GET" "https://yt.example/api/issues" (HEADERS demo_globals) PNone PNone)
           (ok_response 301 (Returns (PList [PInt 1; PNone])))).
  - apply list_elem_of_here.
  - reflexivity.
  - simpl. lia.
  - simpl. lia.
  - reflexivity.
Defined.

(** X6: on a status from 400 to 599 the body is never decoded: two answers
    with the same status, reason and URL give the same error mapping,
    whatever their bodies hold. *)
Theorem X6_error_status_hides_the_body (g : Globals) (method endpoint : string)
    (params json_data : pyval) (r1 r2 : Response) :
  400 ≤ status_code r1 < 600 →
  status_code r2 = status_code r1 →
  reason r2 = reason r1 →
  resp_url r2 = resp_url r1 →
  result (_make_request g method endpoint params json_data) (net_const (Returns r1))
    = result (_make_request g method endpoint params json_data) (net_const (Returns r2)) ∧
  ∃ msg, result (_make_request g method endpoint params json_data) (net_const (Returns r1))
         = Returns (error_dict msg).
Proof.
  intros Hs Hs2 Hr Hu.
  rewrite !make_request_result, !make_request_try_result. unfold net_const.
  unfold http_error_msg. rewrite Hs2, Hr, Hu.
  repeat case_bool_decide; try lia; (split; [done|by eexists]).
Qed.

Lemma X6_demo_instance :
  result (_make_request demo_globals "POST" "issues/DEMO-1" PNone PNone)
    (net_const (Returns (mkResponse 400 "Bad Request" "u"
       (Returns (PDict {[ "error_description" := PStr "Unknown field" ]})))))
  = result (_make_request demo_globals "POST" "issues/DEMO-1" PNone PNone)
      (net_const (Returns (mkResponse 400 "Bad Request" "u" (Returns PNone)))).
Proof.
  refine (proj1 (X6_error_status_hides_the_body demo_globals "POST" "issues/DEMO-1" PNone PNone
           (mkResponse 400 "Bad Request" "u"
              (Returns (PDict {[ "error_description" := PStr "Unknown field" ]})))
           (mkResponse 400 "Bad Request" "u" (Returns PNone)) _ _ _ _)).
  - simpl. lia.
  - reflexivity.
  - reflexivity.
  - reflexivity.
Defined.

(** X7: a returned value that is not an error mapping comes from a call that
    succeeded: the call was answered with a status outside 400..599, and the
    value is the empty mapping of a 204 or the decoded body. *)
Theorem X7_no_error_key_means_success (g : Globals) (method endpoint : string)
    (params json_data : pyval) (net : Transport) (req : Request) (v : pyval) :
  req ∈ issued (_make_request g method endpoint params json_data) net →
  result (_make_request g method endpoint params json_data) net = Returns v →
  is_error_result v = false →
  ∃ r, net req = Returns r ∧
       ¬ (400 ≤ status_code r < 600) ∧
       ((status_code r = 204 ∧ v = PDict ∅) ∨
        (status_code r ≠ 204 ∧ resp_json r = Returns v)).
Proof.
  rewrite make_request_issued, list_elem_of_singleton. intros ->.
  rewrite make_request_result, make_request_try_result.
  destruct (net _) as [r|e]; simpl.
  - repeat case_bool_decide; simpl.
    + intros [= <-]. by rewrite error_dict_is_error.
    + intros [= <-]. by rewrite error_dict_is_error.
    + intros [= <-] _. exists r. split; [done|]. split; [lia|]. by left.
    + destruct (resp_json r) as [w|e] eqn:Hj.
      * intros [= <-] _. exists r. split; [done|]. split; [lia|]. by right.
      * intros [= <-]. by rewrite error_dict_is_error.
  - intros [= <-]. by rewrite error_dict_is_error.
Qed.

Lemma X7_demo_instance :
  ∃ r, net_const (Returns (ok_response 200 (Returns (PList []))))
         (mkRequest "GET" "https://yt.example/api/issues" (HEADERS demo_globals) PNone PNone)
       = Returns r ∧
       ¬ (400 ≤ status_code r < 600) ∧
       ((status_code r = 204 ∧ PList [] = PDict ∅) ∨
        (status_code r ≠ 204 ∧ resp_json r = Returns (PList []))).
Proof.
  apply (X7_no_error_key_means_success demo_globals "GET" "issues" PNone PNone
           (net_const (Returns (ok_response 200 (Returns (PList [])))))
           (mkRequest "GET" "https://yt.example/api/issues" (HEADERS demo_globals) PNone PNone)
           (PList [])).
  - apply list_elem_of_here.
  - reflexivity.
  - reflexivity.
Defined.

(** X8: a body that decodes to a mapping [{"error": msg}] under a success
    status gives the caller the very value that a failed call with the
    message [msg] gives: the two cannot be told apart. *)
Theorem X8_error_body_looks_like_a_failure (g : Globals) (method endpoint : string)
    (params json_data : pyval) (r : Response) (k : RequestsError) (msg : string) :
  ¬ (400 ≤ status_code r < 600) →
  status_code r ≠ 204 →
  resp_json r = Returns (PDict {[ "error" := PStr msg ]}) →
  result (_make_request g method endpoint params json_data) (net_const (Returns r))
    = result (_make_request g method endpoint params json_data)
        (net_const (Raises (mkException (Requests k) msg))).
Proof.
  intros Hs H204 Hj.
  rewrite !make_request_result, !make_request_try_result. unfold net_const.
  repeat case_bool_decide; try lia. by rewrite Hj.
Qed.

Lemma X8_demo_instance :
  result (_make_request demo_globals "GET" "issues/DEMO-1" PNone PNone)
    (net_const (Returns (ok_response 200 (Returns (PDict {[ "error" := PStr "timed out" ]})))))
  = result (_make_request demo_globals "GET" "issues/DEMO-1" PNone PNone)
      (net_const (Raises (mkException (Requests Timeout) "timed out"))).
Proof.
  apply (X8_error_body_looks_like_a_failure demo_globals "GET" "issues/DEMO-1" PNone PNone
           (ok_response 200 (Returns (PDict {[ "error" := PStr "timed out" ]})))
           Timeout "timed out").
  - simpl. lia.
  - simpl. lia.
  - reflexivity.
Defined.

(** X9: the issue id goes into the path as it is, neither checked nor
    escaped: [update_issue] on an id that ends in [/comments] posts to the
    URL that [add_comment] posts to for the id in front of it. *)
Theorem X9_issue_id_is_not_escaped (g : Globals) (net : Transport) (issue_id comment_text : string)
    (data : pyval) (fields : option string) :
  (λ r, (req_method r, req_url r))
    <$> issued (update_issue g (issue_id +:+ "/comments") data fields) net
  = (λ r, (req_method r, req_url r))
    <$> issued (add_comment g issue_id comment_text fields) net.
Proof.
  unfold update_issue, add_comment. by rewrite !make_request_issued.
Qed.

(** ** The command line and the context *)

Lemma parse_arguments_read_only_lookup (args : Namespace) (environ : gmap string string) :
  parse_arguments args environ !! "YOUTRACK_READ_ONLY"
  = if args_read_only args then Some "true" else environ !! "YOUTRACK_READ_ONLY".
Proof.
  unfold parse_arguments.
  destruct (args_read_only args); [by rewrite lookup_insert_eq|].
  destruct (truthy (args_youtrack_token args)), (truthy (args_youtrack_url args));
    by rewrite ?lookup_insert_ne.
Qed.

(** X10: [--read-only] makes the context read-only whatever the environment
    held; without it the flag of the environment stands, so the command line
    can switch the mode on and never off. *)
Theorem X10_command_line_read_only (args : Namespace) (environ : gmap string string) :
  (args_read_only args = true →
   read_only (app_lifespan (parse_arguments args environ)) = true) ∧
  (args_read_only args = false →
   read_only (app_lifespan (parse_arguments args environ)) = read_only (app_lifespan environ)).
Proof.
  unfold app_lifespan, environ_get. simpl.
  rewrite parse_arguments_read_only_lookup.
  split; intros ->; done.
Qed.

Lemma ascii_lower_t (c : ascii) : ascii_lower c = "t"%char → c = "t"%char ∨ c = "T"%char.
Proof. destruct c as [[] [] [] [] [] [] [] []]; vm_compute; intros; try discriminate; auto. Qed.

Lemma ascii_lower_r (c : ascii) : ascii_lower c = "r"%char → c = "r"%char ∨ c = "R"%char.
Proof. destruct c as [[] [] [] [] [] [] [] []]; vm_compute; intros; try discriminate; auto. Qed.

Lemma ascii_lower_u (c : ascii) : ascii_lower c = "u"%char → c = "u"%char ∨ c = "U"%char.
Proof. destruct c as [[] [] [] [] [] [] [] []]; vm_compute; intros; try discriminate; auto. Qed.

Lemma ascii_lower_e (c : ascii) : ascii_lower c = "e"%char → c = "e"%char ∨ c = "E"%char.
Proof. destruct c as [[] [] [] [] [] [] [] []]; vm_compute; intros; try discriminate; auto. Qed.

(** X11: the context is read-only exactly when [YOUTRACK_READ_ONLY] is set to
    the four letters of [true] in any case; unset, or set to anything else
    ([1], [yes], [true] with a blank), the mode is off. *)
Theorem X11_read_only_spellings (environ : gmap string string) :
  read_only (app_lifespan environ) = true ↔
  ∃ a b c d : ascii,
    environ !! "YOUTRACK_READ_ONLY" = Some (String a (String b (String c (String d "")))) ∧
    (a = "t" ∨ a = "T")%char ∧ (b = "r" ∨ b = "R")%char ∧
    (c = "u" ∨ c = "U")%char ∧ (d = "e" ∨ d = "E")%char.
Proof.
  unfold app_lifespan, environ_get. simpl. rewrite bool_decide_eq_true.
  split.
  - destruct (environ !! "YOUTRACK_READ_ONLY") as [v|]; simpl; [|done].
    destruct v as [|a [|b [|c [|d [|x v]]]]]; simpl; try done.
    intros [= Ha Hb Hc Hd]. exists a, b, c, d.
    split; [done|]. auto using ascii_lower_t, ascii_lower_r, ascii_lower_u, ascii_lower_e.
  - intros (a & b & c & d & -> & Ha & Hb & Hc & Hd). simpl.
    destruct Ha as [->| ->], Hb as [->| ->], Hc as [->| ->], Hd as [->| ->]; reflexivity.
Qed.

(** X12: a URL and a token given on the command line reach the context, and
    not the calls: the module globals were bound at the import, before
    [parse_arguments] ran, so every call of a tool still goes to the URL and
    carries the token that the environment held then. *)
Theorem X12_command_line_never_reaches_the_calls (args : Namespace)
    (environ : gmap string string) (net : Transport)
    (query issue_id comment_text : string) (data : pyval)
    (fields custom_fields : option string) (top skip : option Z) (r : Request) :
  r ∈ issued (youtrack_search_issues (proc_api (run_script args environ))
                query fields custom_fields top skip) net
      ++ issued (youtrack_get_issue (proc_api (run_script args environ))
                   issue_id fields custom_fields) net
      ++ issued (youtrack_update_issue (proc_api (run_script args environ))
                   issue_id data fields) net
      ++ issued (youtrack_add_comment (proc_api (run_script args environ))
                   issue_id comment_text fields) net →
  (∃ endpoint,
     req_url r = environ_get environ "YOUTRACK_URL" "YOUR_YOUTRACK_INSTANCE_URL"
                   +:+ "/api/" +:+ endpoint) ∧
  header r "Authorization"
    = Some ("Bearer " +:+ environ_get environ "YOUTRACK_TOKEN" "YOUR_YOUTRACK_TOKEN") ∧
  (∀ u, args_youtrack_url args = Some u → u ≠ "" →
        youtrack_url (app_lifespan (proc_environ (run_script args environ))) = u) ∧
  (∀ t, args_youtrack_token args = Some t → t ≠ "" →
        youtrack_token (app_lifespan (proc_environ (run_script args environ))) = t).
Proof.
  unfold youtrack_search_issues, youtrack_get_issue, youtrack_update_issue,
    youtrack_add_comment, issued.
  rewrite search_issues_run, get_issue_run.
  unfold update_issue, add_comment. rewrite !make_request_run. simpl.
  rewrite !elem_of_cons, elem_of_nil. intros Hr.
  split; [|split; [|split]].
  - destruct Hr as [->|[->|[->|[->|[]]]]]; by eexists.
  - destruct Hr as [->|[->|[->|[->|[]]]]]; unfold header, HEADERS; simpl;
      by rewrite lookup_insert_eq.
  - intros u Hu Hne. unfold app_lifespan, environ_get, parse_arguments. simpl.
    rewrite Hu. destruct u as [|x u]; [done|]. simpl.
    destruct (args_read_only args), (truthy (args_youtrack_token args));
      rewrite ?(lookup_insert_ne _ "YOUTRACK_READ_ONLY"),
        ?(lookup_insert_ne _ "YOUTRACK_TOKEN") by done;
      by rewrite lookup_insert_eq.
  - intros t Ht Hne. unfold app_lifespan, environ_get, parse_arguments. simpl.
    rewrite Ht. destruct t as [|x t]; [done|]. simpl.
    destruct (args_read_only args);
      rewrite ?(lookup_insert_ne _ "YOUTRACK_READ_ONLY") by done;
      by rewrite lookup_insert_eq.
Qed.

Lemma X12_demo_instance :
  (∃ endpoint,
     req_url (mkRequest "GET" "YOUR_YOUTRACK_INSTANCE_URL/api/issues/DEMO-1"
                (HEADERS (mkGlobals "YOUR_YOUTRACK_INSTANCE_URL" "YOUR_YOUTRACK_TOKEN"))
                (PDict {[ "fields" := PStr "idReadable" ]}) PNone)
     = environ_get ∅ "YOUTRACK_URL" "YOUR_YOUTRACK_INSTANCE_URL" +:+ "/api/" +:+ endpoint) ∧
  youtrack_url (app_lifespan (proc_environ
    (run_script (mkNamespace false (Some "https://yt.example") (Some "perm:token")) ∅)))
  = "https://yt.example".
Proof.
  pose proof (X12_command_line_never_reaches_the_calls
           (mkNamespace false (Some "https://yt.example") (Some "perm:token")) ∅
           (net_const (Returns (ok_response 200 (Returns PNone))))
           "project: DEMO" "DEMO-1" "hello" PNone (Some "idReadable") None None None
           (mkRequest "GET" "YOUR_YOUTRACK_INSTANCE_URL/api/issues/DEMO-1"
              (HEADERS (mkGlobals "YOUR_YOUTRACK_INSTANCE_URL" "YOUR_YOUTRACK_TOKEN"))
              (PDict {[ "fields" := PStr "idReadable" ]}) PNone)) as H.
  destruct H as (Hurl & _ & Hctx & _).
  - apply elem_of_app. right. apply elem_of_app. left. apply list_elem_of_here.
  - split; [exact Hurl|]. apply Hctx; [reflexivity|discriminate].
Defined.

(** ** The info resource *)

(** X13: the info resource always answers with the [ok] mapping (its
    [except] clause is never entered), issues no HTTP call, shows the URL of
    the environment as it is at the time of the request, and does not depend
    on the token: no value of [YOUTRACK_TOKEN] changes the answer. *)
Theorem X13_server_info_hides_the_token (sg : ServerGlobals) (environ : gmap string string)
    (token : string) (net : Transport) :
  server_info sg (<["YOUTRACK_TOKEN" := token]> environ) net
    = server_info sg (delete "YOUTRACK_TOKEN" environ) net ∧
  issued (server_info sg environ) net = [] ∧
  ∃ d : gmap string pyval,
    result (server_info sg environ) net = Returns (PDict d) ∧
    d !! "status" = Some (PStr "ok") ∧
    d !! "youtrack_url" = Some (PStr (environ_get environ "YOUTRACK_URL" "Not configured")) ∧
    dom d = ({[ "status"; "version"; "server"; "youtrack_url"; "host_binding"; "port";
                "debug_mode" ]} : gset string).
Proof.
  unfold server_info, try_except, issued, result, environ_get. simpl.
  rewrite !lookup_insert_ne, !lookup_delete_ne by done.
  split; [done|]. split; [done|].
  eexists. split; [done|].
  split; [by rewrite lookup_insert_eq|].
  split.
  - rewrite (lookup_insert_ne _ "status"), (lookup_insert_ne _ "version"),
      (lookup_insert_ne _ "server") by done.
    by rewrite lookup_insert_eq.
  - rewrite !dom_insert_L, dom_singleton_L. set_solver.
Qed.

(** ** The example run of the module *)

(** X14: the guard of the example run tests the token against
    [YOUR_YOUTRACK_PERMANENT_TOKEN], while an unset token is bound to
    [YOUR_YOUTRACK_TOKEN]: with a URL configured and no token at all, the
    run is not stopped and sends the call with the placeholder as bearer
    token. *)
Theorem X14_main_guard_misses_the_unset_token (environ : gmap string string) (url : string)
    (net : Transport) :
  environ !! "YOUTRACK_URL" = Some url →
  url ≠ "YOUR_YOUTRACK_INSTANCE_URL" →
  environ !! "YOUTRACK_TOKEN" = None →
  ∃ r, issued (main (import_youtrack_api environ)) net = [r] ∧
       req_method r = "GET" ∧
       req_url r = url +:+ "/api/issues/FXS-1673" ∧
       header r "Authorization" = Some "Bearer YOUR_YOUTRACK_TOKEN".
Proof.
  intros Hurl Hne Htok.
  unfold main, import_youtrack_api, environ_get. simpl. rewrite Hurl, Htok. simpl.
  rewrite bool_decide_eq_false_2 by done. simpl.
  unfold issued, mbind, Eff_bind. rewrite get_issue_run.
  match goal with
  | |- context [_make_request ?g ?m ?ep ?p ?j ?n] =>
      destruct (make_request_returns g m ep p j n) as [v ->]
  end.
  destruct (is_dict v && negb (is_error_result v)).
  - destruct v as [| | | | | |d]; simpl;
      try (eexists; split; [reflexivity|]; by repeat split).
    destruct (default (PDict ∅) (d !! "project")); simpl;
      eexists; (split; [reflexivity|]); by repeat split.
  - simpl. eexists. split; [reflexivity|]. by repeat split.
Qed.

Lemma X14_demo_instance :
  ∃ r, issued (main (import_youtrack_api {[ "YOUTRACK_URL" := "https://yt.example" ]}))
         (net_const (Returns (ok_response 200 (Returns PNone)))) = [r] ∧
       req_method r = "GET" ∧
       req_url r = "https://yt.example" +:+ "/api/issues/FXS-1673" ∧
       header r "Authorization" = Some "Bearer YOUR_YOUTRACK_TOKEN".
Proof.
  apply (X14_main_guard_misses_the_unset_token
           {[ "YOUTRACK_URL" := "https://yt.example" ]} "https://yt.example"
           (net_const (Returns (ok_response 200 (Returns PNone))))).
  - reflexivity.
  - discriminate.
  - reflexivity.
Defined.

(** X15: the example run stops without a call when the URL is the
    placeholder; past the guard it makes one call, reports a failed call
    with the error mapping, and raises [AttributeError] on an issue whose
    [project] is not a mapping. *)
Theorem X15_main_outcomes (g : Globals) (net : Transport) :
  (YOUTRACK_URL g = "YOUR_YOUTRACK_INSTANCE_URL" →
   main g net = ([], Returns PleaseConfigure)) ∧
  (YOUTRACK_URL g ≠ "YOUR_YOUTRACK_INSTANCE_URL" →
   YOUTRACK_TOKEN g ≠ "YOUR_YOUTRACK_PERMANENT_TOKEN" →
   ∀ v, result (get_issue g "FXS-1673" None None) net = Returns v →
     (is_error_result v = true → result (main g) net = Returns (ErrorGettingDetails v)) ∧
     (∀ d p, v = PDict d → d !! "error" = None → d !! "project" = Some p →
             is_dict p = false →
             ∃ e, result (main g) net = Raises e ∧
                  exc_class e = OtherException "AttributeError")).
Proof.
  split.
  - intros Hu. unfold main. by rewrite bool_decide_eq_true_2.
  - intros Hu Ht v. unfold main, result.
    rewrite !bool_decide_eq_false_2 by done. simpl.
    unfold mbind, Eff_bind. rewrite get_issue_run.
    match goal with
    | |- context [_make_request ?g ?m ?ep ?p ?j ?n] =>
        destruct (make_request_returns g m ep p j n) as [w ->]
    end.
    simpl. intros [= ->]. split.
    + intros ->. by rewrite andb_false_r.
    + intros d p -> Herr Hp Hdict. simpl.
      rewrite bool_decide_eq_false_2 by (rewrite Herr; by intros [? ?]).
      simpl. rewrite Hp. simpl.
      destruct p; try done; simpl; by eexists.
Qed.

Lemma X15_demo_instance :
  ∃ e, result (main demo_globals)
         (net_const (Returns (ok_response 200
            (Returns (PDict {[ "idReadable" := PStr "FXS-1673"; "project" := PNone ]})))))
       = Raises e ∧
       exc_class e = OtherException "AttributeError".
Proof.
  refine (proj2 (proj2 (X15_main_outcomes demo_globals
           (net_const (Returns (ok_response 200
              (Returns (PDict {[ "idReadable" := PStr "FXS-1673"; "project" := PNone ]}))))))
           _ _ (PDict {[ "idReadable" := PStr "FXS-1673"; "project" := PNone ]}) _)
           {[ "idReadable" := PStr "FXS-1673"; "project" := PNone ]} PNone _ _ _ _).
  - discriminate.
  - discriminate.
  - reflexivity.
  - reflexivity.
  - reflexivity.
  - reflexivity.
  - reflexivity.
Defined.

(** * The code with its diagnostic lines *)

(** The line that the except clause for [e] prints, and the value it
    returns. *)
Lemma diag_make_request_run (g : Globals) (method endpoint : string)
    (params json_data : pyval) (w : Diag.World) :
  Diag._make_request g method endpoint params json_data w =
  let url := YOUTRACK_URL g +:+ "/api/" +:+ endpoint in
  let req := mkRequest method url (HEADERS g) params json_data in
  match result (_make_request_try g method url params json_data) (Diag.transport w) with
  | Returns v => ([Diag.Called req], Returns v)
  | Raises e =>
      let line := if is_RequestException e then Diag.RequestErrorLine url e
                  else Diag.UnexpectedErrorLine e in
      match Diag.stdout w line with
      | None =>
          ([Diag.Called req; Diag.Printed line],
           Returns (PDict {[ "error" := PStr (if is_RequestException e then exc_str e
                                              else "An unexpected error occurred") ]}))
      | Some e' => ([Diag.Called req], Raises e')
      end
  end.
Proof.
  unfold Diag._make_request, Diag.try_except, Diag.lift, result. simpl.
  rewrite make_request_try_run. simpl.
  match goal with |- context [match ?o with Returns _ => _ | Raises _ => _ end] =>
    destruct o as [v|e] end; [done|].
  unfold is_RequestException, is_Exception, Diag.print, mbind, Diag.IO_bind.
  destruct (exc_class e); simpl;
    match goal with |- context [Diag.stdout w ?l] => destruct (Diag.stdout w l) end; done.
Qed.

(** Under a standard output that takes every line the calls and the outcome
    are those of the operations without their [print] calls. *)
Lemma diag_make_request_quiet (g : Globals) (method endpoint : string)
    (params json_data : pyval) (w : Diag.World) :
  (∀ l, Diag.stdout w l = None) →
  Diag.calls (Diag._make_request g method endpoint params json_data) w
    = issued (_make_request g method endpoint params json_data) (Diag.transport w) ∧
  Diag.result (Diag._make_request g method endpoint params json_data) w
    = result (_make_request g method endpoint params json_data) (Diag.transport w).
Proof.
  intros Hq. unfold Diag.calls, Diag.result.
  rewrite diag_make_request_run, make_request_issued, make_request_result. simpl.
  destruct (result (_make_request_try _ _ _ _ _) _) as [v|e]; [done|].
  rewrite Hq. simpl. by destruct (is_RequestException e).
Qed.




(** An operation prints its line and then makes the request; when the line
    is refused nothing else happens. *)
Lemma diag_search_issues_run (g : Globals) (query : string) (fields custom_fields : option string)
    (top skip : option Z) (w : Diag.World) :
  Diag.search_issues g query fields custom_fields top skip w =
  match Diag.stdout w (Diag.SearchingLine query) with
  | Some e => ([], Raises e)
  | None =>
      let '(events, o) :=
        Diag._make_request g "GET" "issues"
          (PDict {[ "query" := PStr query;
                    "fields" := PStr (if truthy custom_fields
                                      then default "idReadable,summary,project(shortName)" fields
                                             +:+ "," +:+ format_str custom_fields
                                      else default "idReadable,summary,project(shortName)" fields);
                    "$top" := PInt (default 100 top);
                    "$skip" := PInt (default 0 skip) ]})
          PNone w in
      (Diag.Printed (Diag.SearchingLine query) :: events, o)
  end.
Proof.
  unfold Diag.search_issues, Diag.lift, Diag.print, mbind, Diag.IO_bind.
  destruct (truthy custom_fields).
  - rewrite (iadd_str_fields_run _ (default "idReadable,summary,project(shortName)" fields));
      [|by rewrite lookup_insert_ne, lookup_insert_eq].
    rewrite (insert_insert_ne _ "fields" "query") by done.
    rewrite insert_insert_eq. simpl.
    destruct (Diag.stdout w _); [done|].
    by destruct (Diag._make_request _ _ _ _ _ w).
  - simpl. destruct (Diag.stdout w _); [done|].
    by destruct (Diag._make_request _ _ _ _ _ w).
Qed.

Lemma diag_get_issue_run (g : Globals) (issue_id : string) (fields custom_fields : option string)
    (w : Diag.World) :
  Diag.get_issue g issue_id fields custom_fields w =
  match Diag.stdout w (Diag.GettingLine issue_id) with
  | Some e => ([], Raises e)
  | None =>
      let '(events, o) :=
        Diag._make_request g "GET" ("issues/" +:+ issue_id)
          (PDict {[ "fields" :=
                      PStr (if truthy custom_fields
                            then default "idReadable,summary,description,project(shortName),customFields(projectCustomField(field(name)),value(name,login,fullName,text))" fields
                                   +:+ "," +:+ format_str custom_fields
                            else default "idReadable,summary,description,project(shortName),customFields(projectCustomField(field(name)),value(name,login,fullName,text))" fields) ]})
          PNone w in
      (Diag.Printed (Diag.GettingLine issue_id) :: events, o)
  end.
Proof.
  unfold Diag.get_issue, Diag.lift, Diag.print, mbind, Diag.IO_bind.
  destruct (truthy custom_fields).
  - rewrite (iadd_str_fields_run _ (default "idReadable,summary,description,project(shortName),customFields(projectCustomField(field(name)),value(name,login,fullName,text))" fields));
      [|by rewrite lookup_singleton_eq].
    rewrite insert_singleton_eq. simpl.
    destruct (Diag.stdout w _); [done|].
    by destruct (Diag._make_request _ _ _ _ _ w).
  - simpl. destruct (Diag.stdout w _); [done|].
    by destruct (Diag._make_request _ _ _ _ _ w).
Qed.




(** X16: a line that the standard output refuses raises out of the code.
    Before the call, in an operation: the exception of [print] leaves the
    operation and no HTTP call is issued.  In an except clause of
    [_make_request]: the call has been issued and has failed, and the
    exception of [print] leaves the function in place of the error
    mapping. *)
Theorem X16_refused_line_raises (g : Globals) (w : Diag.World) (e' : PyException)
    (query issue_id comment_text method endpoint : string) (data params json_data : pyval)
    (fields custom_fields : option string) (top skip : option Z) :
  (Diag.stdout w (Diag.SearchingLine query) = Some e' →
   Diag.search_issues g query fields custom_fields top skip w = ([], Raises e')) ∧
  (Diag.stdout w (Diag.GettingLine issue_id) = Some e' →
   Diag.get_issue g issue_id fields custom_fields w = ([], Raises e')) ∧
  (Diag.stdout w (Diag.UpdatingLine issue_id data) = Some e' →
   Diag.update_issue g issue_id data fields w = ([], Raises e')) ∧
  (Diag.stdout w (Diag.AddingLine issue_id comment_text) = Some e' →
   Diag.add_comment g issue_id comment_text fields w = ([], Raises e')) ∧
  (∀ e, Diag.transport w (mkRequest method (YOUTRACK_URL g +:+ "/api/" +:+ endpoint)
                            (HEADERS g) params json_data) = Raises e →
        Diag.stdout w (if is_RequestException e
                       then Diag.RequestErrorLine (YOUTRACK_URL g +:+ "/api/" +:+ endpoint) e
                       else Diag.UnexpectedErrorLine e) = Some e' →
        Diag._make_request g method endpoint params json_data w
          = ([Diag.Called (mkRequest method (YOUTRACK_URL g +:+ "/api/" +:+ endpoint)
                             (HEADERS g) params json_data)],
             Raises e')).
Proof.
  rewrite diag_search_issues_run, diag_get_issue_run.
  unfold Diag.update_issue, Diag.add_comment, Diag.print, mbind, Diag.IO_bind.
  repeat split; try (by intros ->).
  intros e He Hp. rewrite diag_make_request_run. simpl.
  rewrite make_request_try_result, He. by rewrite Hp.
Qed.

Lemma X16_closed_stdout_instance :
  Diag.update_issue demo_globals "DEMO-1" (PDict {[ "summary" := PStr "x" ]}) None
    (Diag.mkWorld (net_const (Returns (ok_response 200 (Returns PNone)))) Diag.stdout_closed)
  = ([], Raises (mkException (OtherException "ValueError") "I/O operation on closed file.")).
Proof.
  refine (proj1 (proj2 (proj2 (X16_refused_line_raises demo_globals
           (Diag.mkWorld (net_const (Returns (ok_response 200 (Returns PNone))))
              Diag.stdout_closed)
           (mkException (OtherException "ValueError") "I/O operation on closed file.")
           "project: DEMO" "DEMO-1" "hello" "GET" "issues"
           (PDict {[ "summary" := PStr "x" ]}) PNone PNone None None None None))) _).
  reflexivity.
Defined.

(** X17: when the standard output takes every line, the [print] calls change
    nothing else: each operation issues the calls and gives the outcome of
    the operation without them. *)
Theorem X17_written_lines_change_nothing (g : Globals) (w : Diag.World)
    (query issue_id comment_text : string) (data : pyval)
    (fields custom_fields : option string) (top skip : option Z) :
  (∀ l, Diag.stdout w l = None) →
  (Diag.calls (Diag.search_issues g query fields custom_fields top skip) w
     = issued (search_issues g query fields custom_fields top skip) (Diag.transport w) ∧
   Diag.result (Diag.search_issues g query fields custom_fields top skip) w
     = result (search_issues g query fields custom_fields top skip) (Diag.transport w)) ∧
  (Diag.calls (Diag.get_issue g issue_id fields custom_fields) w
     = issued (get_issue g issue_id fields custom_fields) (Diag.transport w) ∧
   Diag.result (Diag.get_issue g issue_id fields custom_fields) w
     = result (get_issue g issue_id fields custom_fields) (Diag.transport w)) ∧
  (Diag.calls (Diag.update_issue g issue_id data fields) w
     = issued (update_issue g issue_id data fields) (Diag.transport w) ∧
   Diag.result (Diag.update_issue g issue_id data fields) w
     = result (update_issue g issue_id data fields) (Diag.transport w)) ∧
  (Diag.calls (Diag.add_comment g issue_id comment_text fields) w
     = issued (add_comment g issue_id comment_text fields) (Diag.transport w) ∧
   Diag.result (Diag.add_comment g issue_id comment_text fields) w
     = result (add_comment g issue_id comment_text fields) (Diag.transport w)).
Proof.
  intros Hq. unfold Diag.calls, Diag.result, issued, result.
  rewrite diag_search_issues_run, diag_get_issue_run, search_issues_run, get_issue_run.
  unfold Diag.update_issue, Diag.add_comment, update_issue, add_comment,
    Diag.print, mbind, Diag.IO_bind.
  rewrite !Hq.
  repeat split.
  all: match goal with
       | |- context [Diag._make_request ?g ?m ?ep ?p ?j ?n] =>
           destruct (diag_make_request_quiet g m ep p j n Hq) as [Hc Hr];
           unfold Diag.calls, Diag.result, issued, result in Hc, Hr;
           destruct (Diag._make_request g m ep p j n) as [events o]
       end; simpl in *; congruence.
Qed.

Lemma X17_open_stdout_instance :
  Diag.calls (Diag.update_issue demo_globals "DEMO-1" (PDict {[ "summary" := PStr "x" ]}) None)
    (Diag.mkWorld (net_const (Returns (ok_response 200 (Returns PNone)))) Diag.stdout_open)
  = issued (update_issue demo_globals "DEMO-1" (PDict {[ "summary" := PStr "x" ]}) None)
      (net_const (Returns (ok_response 200 (Returns PNone)))).
Proof.
  refine (proj1 (proj1 (proj2 (proj2 (X17_written_lines_change_nothing demo_globals
           (Diag.mkWorld (net_const (Returns (ok_response 200 (Returns PNone))))
              Diag.stdout_open)
           "project: DEMO" "DEMO-1" "hello" (PDict {[ "summary" := PStr "x" ]})
           None None None None _))))).
  reflexivity.
Defined.
